(** * Access control of the document-sharing API

    A shallow embedding of [src/controllers/doc.controller.ts]: the request
    handlers that list documents, list role assignments, grant and remove
    roles and delete documents, together with the properties of their
    authorisation checks and of the role lists they build. *)

From stdpp Require Import base decidable option list strings.

Open Scope string_scope.
Open Scope list_scope.

(** ** Data model *)

(** [enum Role] of the controller; its members are written [Role.Admin],
    [Role.readOnly] and [Role.readWrite], as in the source. *)
Module Role.
Inductive t := Admin | readOnly | readWrite.

#[global] Instance eq_dec : EqDecision t.
Proof. solve_decision. Defined.
End Role.

(** A user of the directory ([models/user.model]); identifiers are the
    textual form of the store's object identifiers, which is also the form the
    authentication layer puts in [res.locals.userId]. *)
Record user := mkUser {
  user_id : string;      (* _id / id *)
  user_email : string;   (* email *)
}.

(** A document. Both role arrays are optional properties in the source (they
    are read through [?.]), hence the [option]. *)
Record doc := mkDoc {
  _id : string;
  name : string;
  desc : string;
  adminId : string;
  readonly : option (list string);
  readWrite : option (list string);
}.

(** The element type of [data] in [handleGetAllUser]: [{ role, roleId }]. *)
Record RoleItem := mkRoleItem {
  item_role : Role.t;
  roleId : string;
}.

(** The element type of [filteredData]: [{ role, email }]. *)
Record RoleEmail := mkRoleEmail {
  role : Role.t;
  email : string;
}.

(** The element type of [data] in [handleGetFiles]:
    [{ docId, name, desc, role }]. *)
Record FileEntry := mkFileEntry {
  docId : string;
  file_name : string;
  file_desc : string;
  file_role : Role.t;
}.

#[global] Instance user_eq_dec : EqDecision user.
Proof. solve_decision. Defined.
#[global] Instance doc_eq_dec : EqDecision doc.
Proof. solve_decision. Defined.
#[global] Instance RoleItem_eq_dec : EqDecision RoleItem.
Proof. solve_decision. Defined.
#[global] Instance RoleEmail_eq_dec : EqDecision RoleEmail.
Proof. solve_decision. Defined.
#[global] Instance FileEntry_eq_dec : EqDecision FileEntry.
Proof. solve_decision. Defined.

(** ** Responses *)

(** The JSON bodies the handlers send, one constructor per shape. *)
Inductive Json :=
  | Success                                  (* { status: "success" } *)
  | SuccessMessage (message : string)        (* { status: "success", message } *)
  | SuccessUsers (users : list RoleEmail)    (* { status: "success", users } *)
  | SuccessDocs (docs : list FileEntry)      (* { status: "success", docs } *)
  | Fail (error : string).                   (* { status: "fail", error } *)

(** [res.status(code).json(body)]. *)
Record Response := mkResponse {
  statusCode : nat;
  body : Json;
}.

(** [config/config]: the message tables. The file is not part of the
    controller; its entries are taken as parameters of the handlers. *)
Record ErrorMessages := mkErrorMessages {
  UNAUTHORIZED_USER : string;
  INTERNAL_SERVER_ERROR : string;
  INVALID_DOC : string;
  ACCESS_CHANGE_NOT_ALLOWED : string;
  EMAIL_NOT_REGISTERED : string;
}.

Record SuccessMessages := mkSuccessMessages {
  DOC_CREATED : string;
  ACCESS_GRANTED : string;
  ACCESS_REMOVED : string;
}.

(** ** Asynchronous computations with exceptions *)

(** What awaiting a promise gives: its value, or the exception it rejected
    with (only the [message] of an [Error] is ever observed). *)
Inductive outcome (A : Type) :=
  | Returned (a : A)
  | Thrown (message : string).
Arguments Returned {A} a.
Arguments Thrown {A} message.

(** A computation over the world [W] (the datastore behind the services).
    A rejected computation keeps the world it reached: nothing is rolled
    back. *)
Definition async (W A : Type) : Type := W → outcome A * W.

Section Async.
Context {W : Type}.

#[global] Instance async_ret : MRet (async W) :=
  λ A (a : A) w, (Returned a, w).

#[global] Instance async_bind : MBind (async W) :=
  λ A B (k : A → async W B) (m : async W A) w,
    match m w with
    | (Returned a, w') => k a w'
    | (Thrown e, w') => (Thrown e, w')
    end.

(** [throw new Error(message)] *)
Definition throw {A} (message : string) : async W A := λ w, (Thrown message, w).

(** Awaiting a service that only reads the world. *)
Definition read {A} (q : W → outcome A) : async W A := λ w, (q w, w).

(** [try { body } catch (e) { handler(e.message) }] around a whole request
    handler: every path ends by sending one response. *)
Definition try_catch (body : async W Response) (handler : string → Response)
  : W → Response * W :=
  λ w, match body w with
       | (Returned r, w') => (r, w')
       | (Thrown e, w') => (handler e, w')
       end.
End Async.

(** [Promise.all] over computations that only read the world: the array of
    their values, in the order of the input array, or the rejection of one of
    them. (Which rejection wins when several reject depends on timing; the
    first in array order is taken here. The handlers below only pass promises
    that never reject.) *)
Fixpoint Promise_all {W A} (promises : list (W → outcome A)) (w : W)
  : outcome (list A) :=
  match promises with
  | [] => Returned []
  | p :: rest =>
    match p w with
    | Thrown e => Thrown e
    | Returned a =>
      match Promise_all rest w with
      | Thrown e => Thrown e
      | Returned l => Returned (a :: l)
      end
    end
  end.

(** The runtime's side of [Promise.all]: the promises settle in some order
    [completion] (a list of array indices), and each one that settles stores
    its outcome in the result slot of its own index. *)
Definition settle {W A} (promises : list (W → outcome A)) (w : W)
    (slots : list (option (outcome A))) (i : nat) : list (option (outcome A)) :=
  match promises !! i with
  | Some p => <[i := Some (p w)]> slots
  | None => slots
  end.

Definition settle_all {W A} (completion : list nat)
    (promises : list (W → outcome A)) (w : W) : list (option (outcome A)) :=
  foldl (settle promises w) (replicate (length promises) None) completion.

(** ** The services the controller imports *)

(** [services/doc.service] and [services/user.service]. The finders only read
    the datastore; [grantRole], [removeRole] and [deleteDoc] change it. Any of
    them may reject. *)
Class Services (W : Type) := {
  getDocById : string → W → outcome (option doc);
  getAllFiles : string → W → outcome (list doc);
  findUserByEmail : string → W → outcome (option user);
  findUserById : string → W → outcome (option user);
  grantRole : doc → string → Role.t → async W ();
  removeRole : doc → string → Role.t → async W ();
  deleteDoc : string → async W ();
}.

(** ** The request handlers *)

(** [array?.includes(x)], read as a condition: [undefined] is falsy. The
    elements are user references and [x] is the caller's identifier; they are
    compared as identifiers. *)
Definition includes (array : option (list string)) (x : string) : bool :=
  match array with
  | Some l => bool_decide (x ∈ l)
  | None => false
  end.

(** [if (array && array.length > 0) data = data.concat(array)] *)
Definition concat_nonempty {A} (data : list A) (array : option (list A)) : list A :=
  match array with
  | Some l => if bool_decide (0 < length l) then data ++ l else data
  | None => data
  end.

Section Controller.
Context {W : Type} `{!Services W}.
Context (ERROR_MESSAGES : ErrorMessages) (SUCCESS_MESSAGES : SuccessMessages).

(** The merged array [data] of [handleGetAllUser] (lines 56-73). *)
Definition roleItems (d : doc) : list RoleItem :=
  let data := [] in
  let readOnlyArray := fmap (M := option) (fmap (mkRoleItem Role.readOnly)) (readonly d) in
  let readWriteArray := fmap (M := option) (fmap (mkRoleItem Role.readWrite)) (readWrite d) in
  let data := concat_nonempty data readOnlyArray in
  let data := concat_nonempty data readWriteArray in
  data.

(** The callback of [data.map] (lines 77-92): the lookup, and the local
    [try]/[catch] that turns both an absent user and a rejected lookup into
    the placeholder. *)
Definition resolveEmail (item : RoleItem) : W → outcome RoleEmail :=
  λ w,
    let attempt :=
      match findUserById (roleId item) w with
      | Returned (Some user) => Returned (mkRoleEmail (item_role item) (user_email user))
      | Returned None => Thrown "User not found"
      | Thrown e => Thrown e
      end in
    match attempt with
    | Returned r => Returned r
    | Thrown _ => Returned (mkRoleEmail (item_role item) "User not found")
    end.

Definition handleGetAllUser (docId userId : string) : W → Response * W :=
  try_catch
    (d ← read (getDocById docId);
     match d with
     | None => mret (mkResponse 404 (Fail "No document found"))
     | Some d =>
       if bool_decide (adminId d ≠ userId) then
         mret (mkResponse 403 (Fail (UNAUTHORIZED_USER ERROR_MESSAGES)))
       else
         let data := roleItems d in
         let filteredDataPromises := resolveEmail <$> data in
         filteredData ← read (Promise_all filteredDataPromises);
         mret (mkResponse 200 (SuccessUsers filteredData))
     end)
    (λ _, mkResponse 500 (Fail (INTERNAL_SERVER_ERROR ERROR_MESSAGES))).

(** The callback of [files.map] in [handleGetFiles] (lines 111-121). *)
Definition fileEntry (userId : string) (file : doc) : FileEntry :=
  let role := Role.Admin in
  let role :=
    if includes (readonly file) userId then Role.readOnly
    else if includes (readWrite file) userId then Role.readWrite
    else role in
  mkFileEntry (_id file) (name file) (desc file) role.

Definition handleGetFiles (userId : string) : W → Response * W :=
  try_catch
    (files ← read (getAllFiles userId);
     let data := fileEntry userId <$> files in
     mret (mkResponse 200 (SuccessDocs data)))
    (λ _, mkResponse 500 (Fail (INTERNAL_SERVER_ERROR ERROR_MESSAGES))).

Definition handleNewAccessRole (docId email : string) (role : Role.t) (userId : string)
  : W → Response * W :=
  try_catch
    (d ← read (getDocById docId);
     match d with
     | None => mret (mkResponse 404 (Fail (INVALID_DOC ERROR_MESSAGES)))
     | Some d =>
       if bool_decide (adminId d ≠ userId) then
         throw (ACCESS_CHANGE_NOT_ALLOWED ERROR_MESSAGES)
       else
         newPerson ← read (findUserByEmail email);
         match newPerson with
         | None => mret (mkResponse 404 (Fail (EMAIL_NOT_REGISTERED ERROR_MESSAGES)))
         | Some newPerson =>
           grantRole d (user_id newPerson) role;;
           mret (mkResponse 200 (SuccessMessage (ACCESS_GRANTED SUCCESS_MESSAGES)))
         end
     end)
    (λ e, mkResponse 500 (Fail e)).

Definition handleRemoveRole (docId email : string) (role : Role.t) (userId : string)
  : W → Response * W :=
  try_catch
    (d ← read (getDocById docId);
     match d with
     | None => mret (mkResponse 404 (Fail (INVALID_DOC ERROR_MESSAGES)))
     | Some d =>
       if bool_decide (adminId d ≠ userId) then
         throw (ACCESS_CHANGE_NOT_ALLOWED ERROR_MESSAGES)
       else
         newPerson ← read (findUserByEmail email);
         match newPerson with
         | None => mret (mkResponse 404 (Fail (EMAIL_NOT_REGISTERED ERROR_MESSAGES)))
         | Some newPerson =>
           removeRole d (user_id newPerson) role;;
           mret (mkResponse 200 (SuccessMessage (ACCESS_REMOVED SUCCESS_MESSAGES)))
         end
     end)
    (λ e, mkResponse 500 (Fail e)).

Definition handleDeleteDoc (docId userId : string) : W → Response * W :=
  try_catch
    (d ← read (getDocById docId);
     match d with
     | None => mret (mkResponse 404 (Fail (INVALID_DOC ERROR_MESSAGES)))
     | Some d =>
       if bool_decide (adminId d ≠ userId) then
         throw (ACCESS_CHANGE_NOT_ALLOWED ERROR_MESSAGES)
       else
         deleteDoc docId;;
         mret (mkResponse 200 Success)
     end)
    (λ e, mkResponse 500 (Fail e)).
End Controller.

(** ** The datastore, modelled from the specification *)

(** The store behind the services: the document collection and the user
    directory. *)
Record Store := mkStore {
  documents : list doc;
  users : list user;
}.

(** A role set as the specification sees it: an absent array has no
    member. *)
Definition roleSet (array : option (list string)) : list string :=
  default [] array.

(** Modelled from the spec: the visibility rule of [getAllFiles]
    ([services/doc.service], not part of the controller): a document is
    visible to [userId] when [userId] is the owner, or present in
    [readOnlyUsers], or present in [readWriteUsers]. *)
Definition visibleTo (userId : string) (d : doc) : Prop :=
  adminId d = userId ∨ userId ∈ roleSet (readonly d) ∨ userId ∈ roleSet (readWrite d).

#[global] Instance visibleTo_dec userId d : Decision (visibleTo userId d).
Proof. unfold visibleTo. apply _. Defined.

(** The role array a role names; [Role.Admin] names none (it is never
    stored, only computed). *)
Definition roleArray (r : Role.t) (d : doc) : option (list string) :=
  match r with
  | Role.readOnly => readonly d
  | Role.readWrite => readWrite d
  | Role.Admin => None
  end.

Definition setRoleArray (r : Role.t) (array : option (list string)) (d : doc) : doc :=
  match r with
  | Role.readOnly => mkDoc (_id d) (name d) (desc d) (adminId d) array (readWrite d)
  | Role.readWrite => mkDoc (_id d) (name d) (desc d) (adminId d) (readonly d) array
  | Role.Admin => d
  end.

(** Field-level mutation of the document with identifier [id] (the first one,
    identifiers being unique). *)
Fixpoint updateById (id : string) (f : doc → doc) (docs : list doc) : list doc :=
  match docs with
  | [] => []
  | d :: rest =>
    if bool_decide (_id d = id) then f d :: rest
    else d :: updateById id f rest
  end.

Fixpoint removeById (id : string) (docs : list doc) : list doc :=
  match docs with
  | [] => []
  | d :: rest =>
    if bool_decide (_id d = id) then rest
    else d :: removeById id rest
  end.

(** Modelled from the spec: [addToRoleSet(id, role, userId)] appends the
    identifier to the role set matching [role]. *)
Definition addToRoleSet (id : string) (r : Role.t) (userId : string) (docs : list doc)
  : list doc :=
  updateById id (λ d, setRoleArray r (Some (roleSet (roleArray r d) ++ [userId])) d) docs.

(** Modelled from the spec: [removeFromRoleSet(id, role, userId)] removes the
    identifier from the specified role set; an identifier that is not there
    leaves the set as it is. *)
Definition removeFromRoleSet (id : string) (r : Role.t) (userId : string) (docs : list doc)
  : list doc :=
  updateById id (λ d, setRoleArray r (filter (λ x, x ≠ userId) <$> roleArray r d) d) docs.

(** Modelled from the spec: the services of [services/doc.service] and
    [services/user.service], which are not part of the controller, over a
    store that never fails: fetch by identifier (absence is a normal result),
    fetch all documents visible to a user, the two finders of the user
    directory, and the three mutations. *)
#[global] Instance StoreServices : Services Store := {|
  getDocById id w := Returned (List.find (λ d, bool_decide (_id d = id)) (documents w));
  getAllFiles userId w := Returned (filter (visibleTo userId) (documents w));
  findUserByEmail e w := Returned (List.find (λ u, bool_decide (user_email u = e)) (users w));
  findUserById id w := Returned (List.find (λ u, bool_decide (user_id u = id)) (users w));
  grantRole d userId r w :=
    (Returned (), mkStore (addToRoleSet (_id d) r userId (documents w)) (users w));
  removeRole d userId r w :=
    (Returned (), mkStore (removeFromRoleSet (_id d) r userId (documents w)) (users w));
  deleteDoc id w :=
    (Returned (), mkStore (removeById id (documents w)) (users w));
|}.

(** The same store behind a user directory whose lookups by identifier reject
    for the identifiers in [down] (a lost connection, a malformed
    identifier). *)
Definition FlakyDirectory (down : list string) : Services Store := {|
  getDocById := getDocById (Services := StoreServices);
  getAllFiles := getAllFiles (Services := StoreServices);
  findUserByEmail := findUserByEmail (Services := StoreServices);
  findUserById id w :=
    if bool_decide (id ∈ down) then Thrown "directory unreachable"
    else findUserById (Services := StoreServices) id w;
  grantRole := grantRole (Services := StoreServices);
  removeRole := removeRole (Services := StoreServices);
  deleteDoc := deleteDoc (Services := StoreServices);
|}.

(** Modelled from the spec: the two messages of [config/config] that the
    specification quotes (not allowed to change access, email not
    registered); the specification does not give the other entries, and the
    sample table names them after their keys. *)
Definition sampleErrors : ErrorMessages := {|
  UNAUTHORIZED_USER := "unauthorized user";
  INTERNAL_SERVER_ERROR := "internal server error";
  INVALID_DOC := "invalid document";
  ACCESS_CHANGE_NOT_ALLOWED := "not allowed to change access";
  EMAIL_NOT_REGISTERED := "email not registered";
|}.

Definition sampleSuccess : SuccessMessages := {|
  DOC_CREATED := "document created";
  ACCESS_GRANTED := "access granted";
  ACCESS_REMOVED := "access removed";
|}.

(** A small store: Alice owns the document Spec, Bob reads and writes it,
    Carol reads it, and Dave, who also reads and writes it, has left the
    directory. *)
Definition alice := mkUser "a1" "alice@x.com".
Definition bob := mkUser "b2" "bob@x.com".
Definition carol := mkUser "c3" "carol@x.com".

Definition specDoc : doc :=
  mkDoc "d1" "Spec" "v1" "a1" (Some ["c3"]) (Some ["b2"; "d4"]).
Definition notesDoc : doc :=
  mkDoc "d2" "Notes" "draft" "b2" (Some []) None.

Definition sampleStore : Store :=
  mkStore [specDoc; notesDoc] [alice; bob; carol].

(** The store after Alice, through [handleNewAccessRole], has granted herself
    read-only access to her own document: nothing in the handler refuses the
    owner's email. *)
Definition selfGrantedStore : Store :=
  snd (handleNewAccessRole sampleErrors sampleSuccess "d1" "alice@x.com" Role.readOnly "a1"
         sampleStore).

(** ** What the statements below speak of *)

Section Statements.
Context {W : Type} `{!Services W}.

(** The email reported for a user identifier: the directory's, or the
    placeholder when the lookup finds nobody or rejects. *)
Definition emailOf (w : W) (userId : string) : string :=
  match findUserById userId w with
  | Returned (Some u) => user_email u
  | Returned None | Thrown _ => "User not found"
  end.

(** The role assignment reported for an item of the merged array. *)
Definition resolved (w : W) (item : RoleItem) : RoleEmail :=
  mkRoleEmail (item_role item) (emailOf w (roleId item)).
End Statements.

(** The effective role in the specification's words: Admin if owner; else
    readOnly if present in the read-only set; else readWrite if present in the
    read-write set. *)
Definition effectiveRole_spec (userId : string) (d : doc) : option Role.t :=
  if bool_decide (adminId d = userId) then Some Role.Admin
  else if bool_decide (userId ∈ roleSet (readonly d)) then Some Role.readOnly
  else if bool_decide (userId ∈ roleSet (readWrite d)) then Some Role.readWrite
  else None.

(** The effective role by set membership alone: readOnly first, then
    readWrite, and Admin when the user is in neither set. *)
Definition roleByMembership (userId : string) (d : doc) : Role.t :=
  if bool_decide (userId ∈ roleSet (readonly d)) then Role.readOnly
  else if bool_decide (userId ∈ roleSet (readWrite d)) then Role.readWrite
  else Role.Admin.

(** The invariant of the data model: the owner is in neither role set. *)
Definition ownerNotInRoleSets (d : doc) : Prop :=
  (adminId d ∉ roleSet (readonly d)) ∧ (adminId d ∉ roleSet (readWrite d)).

(** The same document under another owner. *)
Definition withOwner (owner : string) (d : doc) : doc :=
  mkDoc (_id d) (name d) (desc d) owner (readonly d) (readWrite d).

(** The merge in the specification's words: the read-only set, tagged
    readOnly, followed by the read-write set, tagged readWrite. *)
Definition mergedRoleSets (d : doc) : list RoleItem :=
  (mkRoleItem Role.readOnly <$> roleSet (readonly d)) ++
  (mkRoleItem Role.readWrite <$> roleSet (readWrite d)).

(** The owner-first precedence as a statement about [handleGetFiles], for
    every implementation of the services: each returned entry carries the role
    the specification's rule gives. *)
Definition owner_first_precedence : Prop :=
  ∀ (W : Type) (S : Services W) (E : ErrorMessages) (w : W)
    (userId : string) (files : list doc),
    getAllFiles userId w = Returned files →
    ∃ entries,
      handleGetFiles E userId w = (mkResponse 200 (SuccessDocs entries), w) ∧
      Forall2 (λ file e, ∀ r, effectiveRole_spec userId file = Some r → file_role e = r)
        files entries.

(** Identifiers are unique in the document collection. *)
Definition uniqueIds (w : Store) : Prop := NoDup (_id <$> documents w).

(** ** Creating a document *)

Section Creation.
Context {W : Type}.
(** [addDoc] of [services/doc.service]: it changes the datastore and may
    reject. *)
Context (addDoc : string → string → string → async W ()).
Context (SUCCESS_MESSAGES : SuccessMessages).

(** [handleAddDoc] (lines 23-35): the caller becomes the admin of the new
    document. *)
Definition handleAddDoc (name desc userId : string) : W → Response * W :=
  try_catch
    (let adminId := userId in
     addDoc name desc adminId;;
     mret (mkResponse 201 (SuccessMessage (DOC_CREATED SUCCESS_MESSAGES))))
    (λ e, mkResponse 500 (Fail e)).
End Creation.

(** Whether a body is of the shape [{ status: "fail", error }]. *)
Definition isFail (b : Json) : bool :=
  match b with
  | Fail _ => true
  | Success | SuccessMessage _ | SuccessUsers _ | SuccessDocs _ => false
  end.

(** ** Stores that fail *)

(** A datastore that cannot be reached: every service rejects with
    [message]. *)
Definition Outage (message : string) : Services Store := {|
  getDocById _ _ := Thrown message;
  getAllFiles _ _ := Thrown message;
  findUserByEmail _ _ := Thrown message;
  findUserById _ _ := Thrown message;
  grantRole _ _ _ w := (Thrown message, w);
  removeRole _ _ _ w := (Thrown message, w);
  deleteDoc _ w := (Thrown message, w);
|}.

(** A datastore whose writes are applied but whose acknowledgement is lost:
    the three mutations change the store as [StoreServices] does and then
    reject with [message]. *)
Definition LostAcknowledgement (message : string) : Services Store := {|
  getDocById := getDocById (Services := StoreServices);
  getAllFiles := getAllFiles (Services := StoreServices);
  findUserByEmail := findUserByEmail (Services := StoreServices);
  findUserById := findUserById (Services := StoreServices);
  grantRole d userId r w :=
    (Thrown message, snd (grantRole (Services := StoreServices) d userId r w));
  removeRole d userId r w :=
    (Thrown message, snd (removeRole (Services := StoreServices) d userId r w));
  deleteDoc id w :=
    (Thrown message, snd (deleteDoc (Services := StoreServices) id w));
|}.

(** Modelled from the spec: [addDoc] ([services/doc.service], not part of the
    controller) creates a document with empty role sets owned by [adminId];
    [newId] is the identifier the store assigns to it. *)
Definition insertDoc (newId : string) (name desc adminId : string) : async Store () :=
  λ w, (Returned (),
        mkStore (documents w ++ [mkDoc newId name desc adminId (Some []) (Some [])])
                (users w)).

(** ** Lemmas on the building blocks *)

(** Runs a handler: unfolds the sequencing of awaits down to the services. *)
Ltac run_handler :=
  unfold try_catch, mbind, async_bind, mret, async_ret, read, throw; simpl.

Lemma includes_roleSet (array : option (list string)) (x : string) :
  includes array x = bool_decide (x ∈ roleSet array).
Proof.
  by destruct array.
Qed.

Lemma concat_nonempty_app {A} (data : list A) (array : option (list A)) :
  concat_nonempty data array = data ++ default [] array.
Proof.
  destruct array as [l|]; simpl.
  - case_bool_decide as Hlen; [done|].
    destruct l; simpl in *; [by rewrite app_nil_r | lia].
  - by rewrite app_nil_r.
Qed.

(** The guards on the lengths change nothing: [data] is the read-only
    identifiers, tagged, followed by the read-write ones. *)
Lemma roleItems_merged (d : doc) : roleItems d = mergedRoleSets d.
Proof.
  unfold roleItems, mergedRoleSets. rewrite !concat_nonempty_app. simpl.
  by destruct (readonly d), (readWrite d).
Qed.

Lemma fileEntry_role (userId : string) (file : doc) :
  file_role (fileEntry userId file) = roleByMembership userId file.
Proof.
  unfold fileEntry, roleByMembership. simpl.
  by rewrite !includes_roleSet.
Qed.

Lemma Promise_all_fmap {W A B} (g : B → W → outcome A) (v : B → A)
    (items : list B) (w : W) :
  (∀ item, g item w = Returned (v item)) →
  Promise_all (g <$> items) w = Returned (v <$> items).
Proof.
  intros Hg. induction items as [|item items IH]; [done|].
  rewrite !fmap_cons. simpl. by rewrite Hg, IH.
Qed.

Lemma settle_length {W A} (promises : list (W → outcome A)) w slots i :
  length (settle promises w slots i) = length slots.
Proof.
  unfold settle. destruct (promises !! i); [apply length_insert | done].
Qed.

(** After the promises with index in [completion] have settled, slot [j]
    holds the outcome of promise [j] if [j] is among them, and is as before
    otherwise. *)
Lemma settle_foldl_lookup {W A} (promises : list (W → outcome A)) (w : W)
    (completion : list nat) (slots : list (option (outcome A))) (j : nat) :
  length slots = length promises →
  foldl (settle promises w) slots completion !! j =
    if decide (j ∈ completion) then (λ p, Some (p w)) <$> promises !! j
    else slots !! j.
Proof.
  revert slots. induction completion as [|i completion IH]; intros slots Hlen.
  - by destruct (decide (j ∈ [])) as [Hin%elem_of_nil|].
  - simpl. rewrite IH; [|by rewrite settle_length].
    destruct (decide (j ∈ completion)) as [Hin|Hin].
    { destruct (decide (j ∈ i :: completion)) as [_|Hn]; [done|].
      destruct Hn. by apply list_elem_of_further. }
    destruct (decide (j = i)) as [->|Hne].
    + destruct (decide (i ∈ i :: completion)) as [_|Hn];
        [|destruct Hn; apply list_elem_of_here].
      unfold settle. destruct (promises !! i) as [p|] eqn:Hp; simpl.
      * apply list_lookup_insert_eq. rewrite Hlen. by eapply lookup_lt_Some.
      * apply lookup_ge_None. rewrite Hlen. by apply lookup_ge_None.
    + destruct (decide (j ∈ i :: completion)) as [Hc|_].
      { apply elem_of_cons in Hc as [?|?]; done. }
      unfold settle. destruct (promises !! i); [|done].
      by apply list_lookup_insert_ne.
Qed.

(** Whatever the order in which the promises settle, the slots end up
    holding the outcomes in the order of the input array. *)
Lemma settle_all_any_order {W A} (promises : list (W → outcome A)) (w : W)
    (completion : list nat) :
  completion ≡ₚ seq 0 (length promises) →
  settle_all completion promises w = (λ p, Some (p w)) <$> promises.
Proof.
  intros Hperm. apply list_eq. intros j.
  unfold settle_all. rewrite settle_foldl_lookup by apply length_replicate.
  rewrite list_lookup_fmap.
  case_decide as Hin; [done|].
  rewrite Hperm, elem_of_seq in Hin.
  assert (length promises ≤ j)%nat as Hge by lia.
  rewrite (proj2 (lookup_ge_None promises j) Hge). simpl.
  apply lookup_ge_None. by rewrite length_replicate.
Qed.

(** ** The handlers, path by path *)

Section Paths.
Context {W : Type} `{!Services W}.
Context (E : ErrorMessages) (S : SuccessMessages).

Lemma resolveEmail_returns (item : RoleItem) (w : W) :
  resolveEmail item w = Returned (resolved w item).
Proof.
  unfold resolveEmail, resolved, emailOf.
  by destruct (findUserById (roleId item) w) as [[u|]|e].
Qed.

Lemma handleGetAllUser_missing docId userId w :
  getDocById docId w = Returned None →
  handleGetAllUser E docId userId w =
    (mkResponse 404 (Fail "No document found"), w).
Proof. intros Hdoc. unfold handleGetAllUser. run_handler. by rewrite Hdoc. Qed.

Lemma handleGetAllUser_stranger docId userId w d :
  getDocById docId w = Returned (Some d) → adminId d ≠ userId →
  handleGetAllUser E docId userId w =
    (mkResponse 403 (Fail (UNAUTHORIZED_USER E)), w).
Proof.
  intros Hdoc Hne. unfold handleGetAllUser. run_handler. rewrite Hdoc.
  by rewrite bool_decide_eq_true_2.
Qed.

Lemma handleGetAllUser_owner docId userId w d :
  getDocById docId w = Returned (Some d) → adminId d = userId →
  handleGetAllUser E docId userId w =
    (mkResponse 200 (SuccessUsers (resolved w <$> mergedRoleSets d)), w).
Proof.
  intros Hdoc Heq. unfold handleGetAllUser. run_handler. rewrite Hdoc.
  rewrite bool_decide_eq_false_2 by (by intros ?).
  rewrite roleItems_merged.
  by rewrite (Promise_all_fmap resolveEmail (resolved w))
    by (intros; apply resolveEmail_returns).
Qed.

Lemma handleGetFiles_returns userId w files :
  getAllFiles userId w = Returned files →
  handleGetFiles E userId w =
    (mkResponse 200 (SuccessDocs (fileEntry userId <$> files)), w).
Proof. intros Hfiles. unfold handleGetFiles. run_handler. by rewrite Hfiles. Qed.

Lemma handleNewAccessRole_missing docId email r userId w :
  getDocById docId w = Returned None →
  handleNewAccessRole E S docId email r userId w =
    (mkResponse 404 (Fail (INVALID_DOC E)), w).
Proof. intros Hdoc. unfold handleNewAccessRole. run_handler. by rewrite Hdoc. Qed.

Lemma handleRemoveRole_missing docId email r userId w :
  getDocById docId w = Returned None →
  handleRemoveRole E S docId email r userId w =
    (mkResponse 404 (Fail (INVALID_DOC E)), w).
Proof. intros Hdoc. unfold handleRemoveRole. run_handler. by rewrite Hdoc. Qed.

Lemma handleDeleteDoc_missing docId userId w :
  getDocById docId w = Returned None →
  handleDeleteDoc E docId userId w =
    (mkResponse 404 (Fail (INVALID_DOC E)), w).
Proof. intros Hdoc. unfold handleDeleteDoc. run_handler. by rewrite Hdoc. Qed.

(** The ownership guard of the three mutating handlers throws, and the
    surrounding [catch] answers 500 with the thrown message. *)
Lemma handleNewAccessRole_stranger docId email r userId w d :
  getDocById docId w = Returned (Some d) → adminId d ≠ userId →
  handleNewAccessRole E S docId email r userId w =
    (mkResponse 500 (Fail (ACCESS_CHANGE_NOT_ALLOWED E)), w).
Proof.
  intros Hdoc Hne. unfold handleNewAccessRole. run_handler. rewrite Hdoc.
  by rewrite bool_decide_eq_true_2.
Qed.

Lemma handleRemoveRole_stranger docId email r userId w d :
  getDocById docId w = Returned (Some d) → adminId d ≠ userId →
  handleRemoveRole E S docId email r userId w =
    (mkResponse 500 (Fail (ACCESS_CHANGE_NOT_ALLOWED E)), w).
Proof.
  intros Hdoc Hne. unfold handleRemoveRole. run_handler. rewrite Hdoc.
  by rewrite bool_decide_eq_true_2.
Qed.

Lemma handleDeleteDoc_stranger docId userId w d :
  getDocById docId w = Returned (Some d) → adminId d ≠ userId →
  handleDeleteDoc E docId userId w =
    (mkResponse 500 (Fail (ACCESS_CHANGE_NOT_ALLOWED E)), w).
Proof.
  intros Hdoc Hne. unfold handleDeleteDoc. run_handler. rewrite Hdoc.
  by rewrite bool_decide_eq_true_2.
Qed.

Lemma handleNewAccessRole_unregistered docId email r userId w d :
  getDocById docId w = Returned (Some d) → adminId d = userId →
  findUserByEmail email w = Returned None →
  handleNewAccessRole E S docId email r userId w =
    (mkResponse 404 (Fail (EMAIL_NOT_REGISTERED E)), w).
Proof.
  intros Hdoc Heq Hmail. unfold handleNewAccessRole. run_handler. rewrite Hdoc.
  rewrite bool_decide_eq_false_2 by (by intros ?). by rewrite Hmail.
Qed.

Lemma handleRemoveRole_unregistered docId email r userId w d :
  getDocById docId w = Returned (Some d) → adminId d = userId →
  findUserByEmail email w = Returned None →
  handleRemoveRole E S docId email r userId w =
    (mkResponse 404 (Fail (EMAIL_NOT_REGISTERED E)), w).
Proof.
  intros Hdoc Heq Hmail. unfold handleRemoveRole. run_handler. rewrite Hdoc.
  rewrite bool_decide_eq_false_2 by (by intros ?). by rewrite Hmail.
Qed.

(** The owner's removal goes through to the service, whose outcome and
    resulting store the handler passes on. *)
Lemma handleRemoveRole_registered docId email r userId w d u w' :
  getDocById docId w = Returned (Some d) → adminId d = userId →
  findUserByEmail email w = Returned (Some u) →
  removeRole d (user_id u) r w = (Returned (), w') →
  handleRemoveRole E S docId email r userId w =
    (mkResponse 200 (SuccessMessage (ACCESS_REMOVED S)), w').
Proof.
  intros Hdoc Heq Hmail Hrm. unfold handleRemoveRole. run_handler. rewrite Hdoc.
  rewrite bool_decide_eq_false_2 by (by intros ?). by rewrite Hmail, Hrm.
Qed.
End Paths.

(** ** Listing the role assignments of a document *)

Section RoleAssignments.
Context {W : Type} `{!Services W}.
Context (E : ErrorMessages).

(** C4. [handleGetAllUser] first requires the document to exist (404, "No
    document found", whoever asks), then the requester to be its owner (403,
    the unauthorised-user message); for an existing document and its owner
    it answers 200 with the merged sequence of role assignments: the
    read-only set tagged readOnly, then the read-write set tagged readWrite,
    each identifier resolved to an email. *)
Theorem handleGetAllUser_preconditions (docId userId : string) (w : W)
    (found : option doc) :
  getDocById docId w = Returned found →
  handleGetAllUser E docId userId w =
    (match found with
     | None => mkResponse 404 (Fail "No document found")
     | Some d =>
       if bool_decide (adminId d = userId) then
         mkResponse 200 (SuccessUsers (resolved w <$> mergedRoleSets d))
       else mkResponse 403 (Fail (UNAUTHORIZED_USER E))
     end, w).
Proof.
  intros Hdoc. destruct found as [d|].
  - case_bool_decide as Howner.
    + by apply handleGetAllUser_owner.
    + by eapply handleGetAllUser_stranger.
  - by apply handleGetAllUser_missing.
Qed.

(** C3. For an existing document and its owner, [handleGetAllUser] answers
    200 with one entry per entry of the merged role sets, at the same
    position and with the same role: an entry whose identifier the directory
    resolves carries that user's email, and an entry whose lookup finds no
    user or rejects carries the placeholder "User not found". No entry is
    dropped, and a failed lookup neither fails the call nor touches the
    other entries. *)
Theorem handleGetAllUser_partial_failure (docId userId : string) (w : W) (d : doc) :
  getDocById docId w = Returned (Some d) →
  adminId d = userId →
  ∃ users,
    handleGetAllUser E docId userId w = (mkResponse 200 (SuccessUsers users), w) ∧
    length users = length (mergedRoleSets d) ∧
    ∀ i item, mergedRoleSets d !! i = Some item →
      ∃ e, users !! i = Some e ∧ role e = item_role item ∧
        (∀ u, findUserById (roleId item) w = Returned (Some u) →
              email e = user_email u) ∧
        ((∀ u, findUserById (roleId item) w ≠ Returned (Some u)) →
              email e = "User not found").
Proof.
  intros Hdoc Howner. exists (resolved w <$> mergedRoleSets d).
  split; [by apply handleGetAllUser_owner|].
  split; [apply length_fmap|].
  intros i item Hitem. exists (resolved w item).
  split; [by rewrite list_lookup_fmap, Hitem|].
  split; [done|]. unfold resolved, emailOf. simpl.
  split.
  - intros u Hu. by rewrite Hu.
  - intros Hnone. destruct (findUserById (roleId item) w) as [[u|]|msg]; [|done..].
    by destruct (Hnone u).
Qed.

(** C5. For an existing document and its owner, the sequence
    [handleGetAllUser] returns is the read-only set in its stored order,
    each identifier tagged readOnly, followed by the read-write set in its
    stored order, each tagged readWrite; and whatever the order in which the
    email lookups complete, the result slots they fill hold exactly that
    sequence. *)
Theorem handleGetAllUser_order (docId userId : string) (w : W) (d : doc) :
  getDocById docId w = Returned (Some d) →
  adminId d = userId →
  ∃ users,
    handleGetAllUser E docId userId w = (mkResponse 200 (SuccessUsers users), w) ∧
    users =
      ((λ id, mkRoleEmail Role.readOnly (emailOf w id)) <$> roleSet (readonly d)) ++
      ((λ id, mkRoleEmail Role.readWrite (emailOf w id)) <$> roleSet (readWrite d)) ∧
    ∀ completion : list nat,
      completion ≡ₚ seq 0 (length (roleItems d)) →
      settle_all completion (resolveEmail <$> roleItems d) w =
        (λ e, Some (Returned e)) <$> users.
Proof.
  intros Hdoc Howner. exists (resolved w <$> mergedRoleSets d).
  split; [by apply handleGetAllUser_owner|].
  split.
  - unfold mergedRoleSets. rewrite fmap_app, <-!list_fmap_compose. done.
  - intros completion Hperm.
    rewrite settle_all_any_order by (by rewrite length_fmap).
    rewrite <-roleItems_merged, <-!list_fmap_compose.
    apply list_fmap_ext. intros i item _. simpl.
    by rewrite resolveEmail_returns.
Qed.
End RoleAssignments.

(** ** Owner-gated operations *)

Section OwnerGate.
Context {W : Type} `{!Services W}.
Context (E : ErrorMessages) (S : SuccessMessages).

(** C10. In the four owner-gated handlers the existence check comes before
    the ownership check: on an identifier for which the store has no
    document, every caller gets the 404 answer (and never the answer of the
    ownership guard), and the store is left as it was. *)
Theorem missing_document_is_not_found (docId email : string) (r : Role.t)
    (userId : string) (w : W) :
  getDocById docId w = Returned None →
  handleGetAllUser E docId userId w =
    (mkResponse 404 (Fail "No document found"), w) ∧
  handleNewAccessRole E S docId email r userId w =
    (mkResponse 404 (Fail (INVALID_DOC E)), w) ∧
  handleRemoveRole E S docId email r userId w =
    (mkResponse 404 (Fail (INVALID_DOC E)), w) ∧
  handleDeleteDoc E docId userId w =
    (mkResponse 404 (Fail (INVALID_DOC E)), w).
Proof.
  intros Hdoc. repeat split.
  - by apply handleGetAllUser_missing.
  - by apply handleNewAccessRole_missing.
  - by apply handleRemoveRole_missing.
  - by apply handleDeleteDoc_missing.
Qed.

(** C6. When the document exists, the caller is its owner and the grantee
    email resolves to no user, both [handleNewAccessRole] and
    [handleRemoveRole] answer 404 with the email-not-registered message, and
    the store (hence every role set) is as it was: neither [grantRole] nor
    [removeRole] is reached. *)
Theorem unregistered_email_is_not_found (docId email : string) (r : Role.t)
    (userId : string) (w : W) (d : doc) :
  getDocById docId w = Returned (Some d) →
  adminId d = userId →
  findUserByEmail email w = Returned None →
  handleNewAccessRole E S docId email r userId w =
    (mkResponse 404 (Fail (EMAIL_NOT_REGISTERED E)), w) ∧
  handleRemoveRole E S docId email r userId w =
    (mkResponse 404 (Fail (EMAIL_NOT_REGISTERED E)), w).
Proof.
  intros Hdoc Howner Hmail. split.
  - by eapply handleNewAccessRole_unregistered.
  - by eapply handleRemoveRole_unregistered.
Qed.

(** C2. What the code does for a caller who is not the owner of an existing
    document: [handleNewAccessRole], [handleRemoveRole] and
    [handleDeleteDoc] throw a plain error that their catch-all turns into a
    500 answer carrying the access-change message, whatever role the caller
    holds, and the store is untouched; only [handleGetAllUser] answers the
    same case with 403. *)
Theorem non_owner_answered_500 (docId email : string) (r : Role.t)
    (userId : string) (w : W) (d : doc) :
  getDocById docId w = Returned (Some d) →
  adminId d ≠ userId →
  handleNewAccessRole E S docId email r userId w =
    (mkResponse 500 (Fail (ACCESS_CHANGE_NOT_ALLOWED E)), w) ∧
  handleRemoveRole E S docId email r userId w =
    (mkResponse 500 (Fail (ACCESS_CHANGE_NOT_ALLOWED E)), w) ∧
  handleDeleteDoc E docId userId w =
    (mkResponse 500 (Fail (ACCESS_CHANGE_NOT_ALLOWED E)), w) ∧
  handleGetAllUser E docId userId w =
    (mkResponse 403 (Fail (UNAUTHORIZED_USER E)), w).
Proof.
  intros Hdoc Hne. repeat split.
  - by eapply handleNewAccessRole_stranger.
  - by eapply handleRemoveRole_stranger.
  - by eapply handleDeleteDoc_stranger.
  - by eapply handleGetAllUser_stranger.
Qed.
End OwnerGate.

(** ** Listing the documents visible to a user *)

Lemma roleByMembership_owner_first (userId : string) (file : doc) (r : Role.t) :
  ownerNotInRoleSets file →
  effectiveRole_spec userId file = Some r →
  roleByMembership userId file = r.
Proof.
  intros [Hro Hrw]. unfold effectiveRole_spec, roleByMembership.
  case_bool_decide as Howner.
  - subst userId. intros [= <-].
    by rewrite !bool_decide_eq_false_2.
  - repeat case_bool_decide; congruence.
Qed.

Lemma roleByMembership_Admin (userId : string) (file : doc) :
  roleByMembership userId file = Role.Admin ↔
  (userId ∉ roleSet (readonly file)) ∧ (userId ∉ roleSet (readWrite file)).
Proof.
  unfold roleByMembership.
  destruct (decide (userId ∈ roleSet (readonly file))) as [Hro|Hro];
    [rewrite bool_decide_eq_true_2 by done; split; [done | by intros [? _]]|].
  rewrite bool_decide_eq_false_2 by done.
  destruct (decide (userId ∈ roleSet (readWrite file))) as [Hrw|Hrw];
    [rewrite bool_decide_eq_true_2 by done; split; [done | by intros [_ ?]]|].
  by rewrite bool_decide_eq_false_2 by done.
Qed.

Section VisibleDocuments.
Context {W : Type} `{!Services W}.
Context (E : ErrorMessages).

(** C1 (amended). Each entry [handleGetFiles] returns carries the role
    given by set membership: readOnly if the caller is in the read-only set,
    otherwise readWrite if the caller is in the read-write set, otherwise
    Admin. Ownership is not consulted; for a document whose owner is in
    neither role set this is the owner-first rule: Admin for the owner,
    otherwise readOnly, otherwise readWrite. *)
Theorem handleGetFiles_role_precedence (userId : string) (w : W) (files : list doc) :
  getAllFiles userId w = Returned files →
  ∃ entries,
    handleGetFiles E userId w = (mkResponse 200 (SuccessDocs entries), w) ∧
    Forall2 (λ file e,
        file_role e = roleByMembership userId file ∧
        (ownerNotInRoleSets file →
         ∀ r, effectiveRole_spec userId file = Some r → file_role e = r))
      files entries.
Proof.
  intros Hfiles. exists (fileEntry userId <$> files).
  split; [by apply handleGetFiles_returns|].
  apply Forall2_fmap_r, Forall_Forall2_diag, Forall_forall.
  intros file _. unfold compose. rewrite fileEntry_role. split; [done|].
  intros Hinv r Hr. by apply roleByMembership_owner_first.
Qed.

(** C9. Each entry [handleGetFiles] returns has role Admin exactly when the
    caller is in neither the read-only nor the read-write set of its
    document, and the entry is the same whoever owns the document: the owner
    field is never consulted. *)
Theorem handleGetFiles_admin_by_default (userId : string) (w : W) (files : list doc) :
  getAllFiles userId w = Returned files →
  ∃ entries,
    handleGetFiles E userId w = (mkResponse 200 (SuccessDocs entries), w) ∧
    Forall2 (λ file e,
        (file_role e = Role.Admin ↔
         (userId ∉ roleSet (readonly file)) ∧ (userId ∉ roleSet (readWrite file))) ∧
        (∀ owner, fileEntry userId (withOwner owner file) = e))
      files entries.
Proof.
  intros Hfiles. exists (fileEntry userId <$> files).
  split; [by apply handleGetFiles_returns|].
  apply Forall2_fmap_r, Forall_Forall2_diag, Forall_forall.
  intros file _. unfold compose. split.
  - rewrite fileEntry_role. apply roleByMembership_Admin.
  - done.
Qed.
End VisibleDocuments.

(** ** Over the modelled store *)

Lemma unique_by_id (docs : list doc) (d1 d2 : doc) :
  NoDup (_id <$> docs) → d1 ∈ docs → d2 ∈ docs → _id d1 = _id d2 → d1 = d2.
Proof.
  induction docs as [|d docs IH]; intros Hnd H1 H2 Hid.
  - by apply elem_of_nil in H1.
  - rewrite fmap_cons in Hnd. apply NoDup_cons in Hnd as [Hfresh Hnd].
    apply elem_of_cons in H1 as [->|H1]; apply elem_of_cons in H2 as [->|H2].
    + done.
    + destruct Hfresh. rewrite Hid. by apply list_elem_of_fmap_2.
    + destruct Hfresh. rewrite <-Hid. by apply list_elem_of_fmap_2.
    + by apply IH.
Qed.

Lemma updateById_fixed (id : string) (f : doc → doc) (docs : list doc) (d : doc) :
  List.find (λ x, bool_decide (_id x = id)) docs = Some d →
  f d = d →
  updateById id f docs = docs.
Proof.
  intros Hfind Hfix. induction docs as [|x docs IH]; simpl in *; [done|].
  case_bool_decide.
  - injection Hfind as ->. by rewrite Hfix.
  - by rewrite IH.
Qed.

Lemma find_by_id (id : string) (docs : list doc) (d : doc) :
  List.find (λ x, bool_decide (_id x = id)) docs = Some d → _id d = id.
Proof.
  induction docs as [|x docs IH]; simpl; [done|].
  case_bool_decide; [by intros [= <-] | done].
Qed.

Lemma filter_absent (userId : string) (l : list string) :
  userId ∉ l → filter (λ x, x ≠ userId) l = l.
Proof.
  induction l as [|x l IH]; intros Hnot; [done|].
  apply not_elem_of_cons in Hnot as [Hne Hnot].
  rewrite filter_cons_True by done. by rewrite IH.
Qed.

(** Removing an identifier from a role array that does not hold it gives the
    document back. *)
Lemma setRoleArray_absent (r : Role.t) (userId : string) (d : doc) :
  userId ∉ roleSet (roleArray r d) →
  setRoleArray r (filter (λ x, x ≠ userId) <$> roleArray r d) d = d.
Proof.
  intros Hnot. destruct d as [i n de a ro rw], r; simpl in *; [done|..].
  - destruct ro as [l|]; simpl in *; [|done]. by rewrite filter_absent.
  - destruct rw as [l|]; simpl in *; [|done]. by rewrite filter_absent.
Qed.

(** C7. Over the modelled store, [handleGetFiles] answers 200 with the
    entries of exactly the documents of which the caller is the owner or in
    whose read-only or read-write set the caller is: every such document is
    returned, and a document of which the caller is neither owner nor member
    of a role set is not (nor, identifiers being unique, is any entry with its
    identifier). *)
Theorem handleGetFiles_visibility (E : ErrorMessages) (store : Store) (userId : string) :
  ∃ files,
    handleGetFiles E userId store =
      (mkResponse 200 (SuccessDocs (fileEntry userId <$> files)), store) ∧
    (∀ D, D ∈ files ↔
          D ∈ documents store ∧
          (adminId D = userId ∨ userId ∈ roleSet (readonly D) ∨
           userId ∈ roleSet (readWrite D))) ∧
    (uniqueIds store →
     ∀ D, D ∈ documents store →
          adminId D ≠ userId →
          userId ∉ roleSet (readonly D) →
          userId ∉ roleSet (readWrite D) →
          _id D ∉ docId <$> (fileEntry userId <$> files)).
Proof.
  exists (filter (visibleTo userId) (documents store)).
  split; [by apply handleGetFiles_returns|].
  split.
  - intros D. rewrite list_elem_of_filter. unfold visibleTo. tauto.
  - intros Huniq D HD Howner Hro Hrw Hin.
    apply list_elem_of_fmap in Hin as (e & Hid & He).
    apply list_elem_of_fmap in He as (D' & -> & HD').
    apply list_elem_of_filter in HD' as [Hvis HD'].
    assert (D = D') as <- by (by apply (unique_by_id (documents store))).
    unfold visibleTo in Hvis. tauto.
Qed.

(** C8. Over the modelled store, when the document exists, the caller is its
    owner, the grantee email resolves to a user and that user's identifier is
    not in the role set named by the request, [handleRemoveRole] answers 200
    with the access-removed message and the store is exactly as before: both
    role sets and every other field of every document are unchanged. *)
Theorem handleRemoveRole_absent_noop (E : ErrorMessages) (S : SuccessMessages)
    (store : Store) (docId email : string) (r : Role.t) (userId : string)
    (d : doc) (u : user) :
  getDocById docId store = Returned (Some d) →
  adminId d = userId →
  findUserByEmail email store = Returned (Some u) →
  r ≠ Role.Admin →
  user_id u ∉ roleSet (roleArray r d) →
  handleRemoveRole E S docId email r userId store =
    (mkResponse 200 (SuccessMessage (ACCESS_REMOVED S)), store).
Proof.
  intros Hdoc Howner Hmail _ Habsent.
  eapply handleRemoveRole_registered; [done..|].
  simpl. f_equal. destruct store as [docs us]. simpl in *. f_equal.
  injection Hdoc as Hfind.
  unfold removeFromRoleSet. rewrite (find_by_id _ _ _ Hfind).
  eapply updateById_fixed; [done|]. by apply setRoleArray_absent.
Qed.

(** ** The statements at the sample store *)

(** Alice lists the role assignments of her document: Carol, Bob, and the
    placeholder for Dave, who has left the directory. *)
Example alice_lists_role_assignments :
  handleGetAllUser sampleErrors "d1" "a1" sampleStore =
    (mkResponse 200 (SuccessUsers
       [mkRoleEmail Role.readOnly "carol@x.com";
        mkRoleEmail Role.readWrite "bob@x.com";
        mkRoleEmail Role.readWrite "User not found"]), sampleStore).
Proof. reflexivity. Qed.

(** With a directory that rejects the lookup of Carol, her entry alone turns
    into the placeholder. *)
Example alice_lists_with_flaky_directory :
  handleGetAllUser (Services0 := FlakyDirectory ["c3"]) sampleErrors "d1" "a1" sampleStore =
    (mkResponse 200 (SuccessUsers
       [mkRoleEmail Role.readOnly "User not found";
        mkRoleEmail Role.readWrite "bob@x.com";
        mkRoleEmail Role.readWrite "User not found"]), sampleStore).
Proof. reflexivity. Qed.

(** Once Alice is in the read-only set of her own document, her listing
    reports readOnly for it. *)
Example alice_listed_as_reader :
  handleGetFiles sampleErrors "a1" selfGrantedStore =
    (mkResponse 200 (SuccessDocs [mkFileEntry "d1" "Spec" "v1" Role.readOnly]),
     selfGrantedStore) ∧
  effectiveRole_spec "a1" (mkDoc "d1" "Spec" "v1" "a1" (Some ["c3"; "a1"]) (Some ["b2"; "d4"]))
    = Some Role.Admin.
Proof. split; reflexivity. Qed.

Lemma handleGetAllUser_preconditions_witness :
  getDocById "d1" sampleStore = Returned (Some specDoc) ∧
  handleGetAllUser sampleErrors "d1" "a1" sampleStore =
    (mkResponse 200 (SuccessUsers (resolved sampleStore <$> mergedRoleSets specDoc)),
     sampleStore) ∧
  handleGetAllUser sampleErrors "d1" "b2" sampleStore =
    (mkResponse 403 (Fail "unauthorized user"), sampleStore) ∧
  handleGetAllUser sampleErrors "zz" "a1" sampleStore =
    (mkResponse 404 (Fail "No document found"), sampleStore).
Proof.
  split; [reflexivity|]. split; [|split].
  - exact (handleGetAllUser_preconditions sampleErrors "d1" "a1" sampleStore
             (Some specDoc) eq_refl).
  - exact (handleGetAllUser_preconditions sampleErrors "d1" "b2" sampleStore
             (Some specDoc) eq_refl).
  - exact (handleGetAllUser_preconditions sampleErrors "zz" "a1" sampleStore
             None eq_refl).
Defined.

Lemma handleGetAllUser_partial_failure_witness :
  getDocById "d1" sampleStore = Returned (Some specDoc) ∧
  adminId specDoc = "a1" ∧
  ∃ users,
    handleGetAllUser sampleErrors "d1" "a1" sampleStore =
      (mkResponse 200 (SuccessUsers users), sampleStore) ∧
    length users = length (mergedRoleSets specDoc) ∧
    ∀ i item, mergedRoleSets specDoc !! i = Some item →
      ∃ e, users !! i = Some e ∧ role e = item_role item ∧
        (∀ u, findUserById (roleId item) sampleStore = Returned (Some u) →
              email e = user_email u) ∧
        ((∀ u, findUserById (roleId item) sampleStore ≠ Returned (Some u)) →
              email e = "User not found").
Proof.
  split; [reflexivity|]. split; [reflexivity|].
  exact (handleGetAllUser_partial_failure sampleErrors "d1" "a1" sampleStore specDoc
           eq_refl eq_refl).
Defined.

Lemma handleGetAllUser_order_witness :
  getDocById "d1" sampleStore = Returned (Some specDoc) ∧
  adminId specDoc = "a1" ∧
  ∃ users,
    handleGetAllUser sampleErrors "d1" "a1" sampleStore =
      (mkResponse 200 (SuccessUsers users), sampleStore) ∧
    users =
      ((λ id, mkRoleEmail Role.readOnly (emailOf sampleStore id)) <$> roleSet (readonly specDoc)) ++
      ((λ id, mkRoleEmail Role.readWrite (emailOf sampleStore id)) <$> roleSet (readWrite specDoc)) ∧
    ∀ completion : list nat,
      completion ≡ₚ seq 0 (length (roleItems specDoc)) →
      settle_all completion (resolveEmail <$> roleItems specDoc) sampleStore =
        (λ e, Some (Returned e)) <$> users.
Proof.
  split; [reflexivity|]. split; [reflexivity|].
  exact (handleGetAllUser_order sampleErrors "d1" "a1" sampleStore specDoc
           eq_refl eq_refl).
Defined.

(** The lookups of the three entries completing last to first fill the same
    slots. *)
Example lookups_settle_in_reverse :
  settle_all [2; 0; 1] (resolveEmail <$> roleItems specDoc) sampleStore =
    [Some (Returned (mkRoleEmail Role.readOnly "carol@x.com"));
     Some (Returned (mkRoleEmail Role.readWrite "bob@x.com"));
     Some (Returned (mkRoleEmail Role.readWrite "User not found"))].
Proof. reflexivity. Qed.

Lemma missing_document_is_not_found_witness :
  getDocById "zz" sampleStore = Returned None ∧
  handleGetAllUser sampleErrors "zz" "b2" sampleStore =
    (mkResponse 404 (Fail "No document found"), sampleStore) ∧
  handleNewAccessRole sampleErrors sampleSuccess "zz" "carol@x.com" Role.readWrite "b2"
      sampleStore =
    (mkResponse 404 (Fail "invalid document"), sampleStore) ∧
  handleRemoveRole sampleErrors sampleSuccess "zz" "carol@x.com" Role.readWrite "b2"
      sampleStore =
    (mkResponse 404 (Fail "invalid document"), sampleStore) ∧
  handleDeleteDoc sampleErrors "zz" "b2" sampleStore =
    (mkResponse 404 (Fail "invalid document"), sampleStore).
Proof.
  split; [reflexivity|].
  exact (missing_document_is_not_found sampleErrors sampleSuccess "zz" "carol@x.com"
           Role.readWrite "b2" sampleStore eq_refl).
Defined.

Lemma unregistered_email_is_not_found_witness :
  getDocById "d1" sampleStore = Returned (Some specDoc) ∧
  adminId specDoc = "a1" ∧
  findUserByEmail "nobody@x.com" sampleStore = Returned None ∧
  handleNewAccessRole sampleErrors sampleSuccess "d1" "nobody@x.com" Role.readOnly "a1"
      sampleStore =
    (mkResponse 404 (Fail "email not registered"), sampleStore) ∧
  handleRemoveRole sampleErrors sampleSuccess "d1" "nobody@x.com" Role.readOnly "a1"
      sampleStore =
    (mkResponse 404 (Fail "email not registered"), sampleStore).
Proof.
  split; [reflexivity|]. split; [reflexivity|]. split; [reflexivity|].
  exact (unregistered_email_is_not_found sampleErrors sampleSuccess "d1" "nobody@x.com"
           Role.readOnly "a1" sampleStore specDoc eq_refl eq_refl eq_refl).
Defined.

(** Bob holds read-write access to Alice's document and is not its owner. *)
Lemma non_owner_answered_500_witness :
  getDocById "d1" sampleStore = Returned (Some specDoc) ∧
  adminId specDoc ≠ "b2" ∧
  "b2" ∈ roleSet (readWrite specDoc) ∧
  handleNewAccessRole sampleErrors sampleSuccess "d1" "carol@x.com" Role.readWrite "b2"
      sampleStore =
    (mkResponse 500 (Fail "not allowed to change access"), sampleStore) ∧
  handleRemoveRole sampleErrors sampleSuccess "d1" "carol@x.com" Role.readWrite "b2"
      sampleStore =
    (mkResponse 500 (Fail "not allowed to change access"), sampleStore) ∧
  handleDeleteDoc sampleErrors "d1" "b2" sampleStore =
    (mkResponse 500 (Fail "not allowed to change access"), sampleStore) ∧
  handleGetAllUser sampleErrors "d1" "b2" sampleStore =
    (mkResponse 403 (Fail "unauthorized user"), sampleStore).
Proof.
  split; [reflexivity|]. split; [discriminate|]. split; [compute_done|].
  refine (non_owner_answered_500 sampleErrors sampleSuccess "d1" "carol@x.com"
            Role.readWrite "b2" sampleStore specDoc eq_refl _).
  discriminate.
Defined.

Lemma handleGetFiles_role_precedence_witness :
  getAllFiles "b2" sampleStore = Returned [specDoc; notesDoc] ∧
  ownerNotInRoleSets specDoc ∧ ownerNotInRoleSets notesDoc ∧
  ∃ entries,
    handleGetFiles sampleErrors "b2" sampleStore =
      (mkResponse 200 (SuccessDocs entries), sampleStore) ∧
    Forall2 (λ file e,
        file_role e = roleByMembership "b2" file ∧
        (ownerNotInRoleSets file →
         ∀ r, effectiveRole_spec "b2" file = Some r → file_role e = r))
      [specDoc; notesDoc] entries.
Proof.
  split; [reflexivity|].
  split; [split; compute_done|]. split; [split; compute_done|].
  exact (handleGetFiles_role_precedence sampleErrors "b2" sampleStore
           [specDoc; notesDoc] eq_refl).
Defined.

Lemma handleGetFiles_admin_by_default_witness :
  getAllFiles "b2" sampleStore = Returned [specDoc; notesDoc] ∧
  ∃ entries,
    handleGetFiles sampleErrors "b2" sampleStore =
      (mkResponse 200 (SuccessDocs entries), sampleStore) ∧
    Forall2 (λ file e,
        (file_role e = Role.Admin ↔
         ("b2" ∉ roleSet (readonly file)) ∧ ("b2" ∉ roleSet (readWrite file))) ∧
        (∀ owner, fileEntry "b2" (withOwner owner file) = e))
      [specDoc; notesDoc] entries.
Proof.
  split; [reflexivity|].
  exact (handleGetFiles_admin_by_default sampleErrors "b2" sampleStore
           [specDoc; notesDoc] eq_refl).
Defined.

Lemma handleGetFiles_visibility_witness :
  uniqueIds sampleStore ∧
  specDoc ∈ documents sampleStore ∧ notesDoc ∈ documents sampleStore ∧
  ¬ visibleTo "c3" notesDoc ∧ visibleTo "c3" specDoc ∧
  ∃ files,
    handleGetFiles sampleErrors "c3" sampleStore =
      (mkResponse 200 (SuccessDocs (fileEntry "c3" <$> files)), sampleStore) ∧
    (∀ D, D ∈ files ↔
          D ∈ documents sampleStore ∧
          (adminId D = "c3" ∨ "c3" ∈ roleSet (readonly D) ∨
           "c3" ∈ roleSet (readWrite D))) ∧
    (uniqueIds sampleStore →
     ∀ D, D ∈ documents sampleStore →
          adminId D ≠ "c3" →
          "c3" ∉ roleSet (readonly D) →
          "c3" ∉ roleSet (readWrite D) →
          _id D ∉ docId <$> (fileEntry "c3" <$> files)).
Proof.
  split; [unfold uniqueIds; compute_done|].
  split; [compute_done|]. split; [compute_done|].
  split; [compute_done|]. split; [compute_done|].
  exact (handleGetFiles_visibility sampleErrors sampleStore "c3").
Defined.

(** Alice is not in the read-only set of her document; removing her from it
    changes nothing. *)
Lemma handleRemoveRole_absent_noop_witness :
  getDocById "d1" sampleStore = Returned (Some specDoc) ∧
  adminId specDoc = "a1" ∧
  findUserByEmail "bob@x.com" sampleStore = Returned (Some bob) ∧
  Role.readOnly ≠ Role.Admin ∧
  (user_id bob ∉ roleSet (roleArray Role.readOnly specDoc)) ∧
  handleRemoveRole sampleErrors sampleSuccess "d1" "bob@x.com" Role.readOnly "a1"
      sampleStore =
    (mkResponse 200 (SuccessMessage "access removed"), sampleStore).
Proof.
  split; [reflexivity|]. split; [reflexivity|]. split; [reflexivity|].
  split; [discriminate|]. split; [compute_done|].
  refine (handleRemoveRole_absent_noop sampleErrors sampleSuccess sampleStore "d1"
            "bob@x.com" Role.readOnly "a1" specDoc bob eq_refl eq_refl eq_refl _ _).
  - discriminate.
  - compute_done.
Defined.

(** C1 (as stated). The owner-first precedence fails once the owner is in a
    role set of the document: at [selfGrantedStore] Alice owns the document
    Spec and is in its read-only set, the specification's rule gives Admin,
    and [handleGetFiles] reports readOnly. *)
Lemma owner_first_precedence_fails : ¬ owner_first_precedence.
Proof.
  intros Hclaim.
  destruct (Hclaim Store StoreServices sampleErrors selfGrantedStore "a1" _ eq_refl)
    as (entries & Hrun & Hroles).
  vm_compute in Hrun. injection Hrun as <-.
  vm_compute in Hroles.
  inversion Hroles as [|file e files entries Hhead _]; subst.
  specialize (Hhead Role.Admin eq_refl). discriminate.
Qed.

(** ** Every path of the handlers *)

(** The handlers as decision tables over the outcomes of the services they
    await; the properties of the next sections are read off these. *)
Section Tables.
Context {W : Type} `{!Services W}.
Context (E : ErrorMessages) (S : SuccessMessages).

Lemma handleGetAllUser_table (docId userId : string) (w : W) :
  handleGetAllUser E docId userId w =
    (match getDocById docId w with
     | Thrown _ => mkResponse 500 (Fail (INTERNAL_SERVER_ERROR E))
     | Returned None => mkResponse 404 (Fail "No document found")
     | Returned (Some d) =>
       if bool_decide (adminId d = userId) then
         mkResponse 200 (SuccessUsers (resolved w <$> mergedRoleSets d))
       else mkResponse 403 (Fail (UNAUTHORIZED_USER E))
     end, w).
Proof.
  destruct (getDocById docId w) as [[d|]|m] eqn:Hdoc.
  - case_bool_decide.
    + by apply handleGetAllUser_owner.
    + by eapply handleGetAllUser_stranger.
  - by apply handleGetAllUser_missing.
  - unfold handleGetAllUser. run_handler. by rewrite Hdoc.
Qed.

Lemma handleGetFiles_table (userId : string) (w : W) :
  handleGetFiles E userId w =
    (match getAllFiles userId w with
     | Thrown _ => mkResponse 500 (Fail (INTERNAL_SERVER_ERROR E))
     | Returned files => mkResponse 200 (SuccessDocs (fileEntry userId <$> files))
     end, w).
Proof.
  unfold handleGetFiles. run_handler. by destruct (getAllFiles userId w).
Qed.

Lemma handleNewAccessRole_table (docId email : string) (r : Role.t)
    (userId : string) (w : W) :
  handleNewAccessRole E S docId email r userId w =
    match getDocById docId w with
    | Thrown m => (mkResponse 500 (Fail m), w)
    | Returned None => (mkResponse 404 (Fail (INVALID_DOC E)), w)
    | Returned (Some d) =>
      if bool_decide (adminId d = userId) then
        match findUserByEmail email w with
        | Thrown m => (mkResponse 500 (Fail m), w)
        | Returned None => (mkResponse 404 (Fail (EMAIL_NOT_REGISTERED E)), w)
        | Returned (Some u) =>
          match grantRole d (user_id u) r w with
          | (Returned _, w') =>
            (mkResponse 200 (SuccessMessage (ACCESS_GRANTED S)), w')
          | (Thrown m, w') => (mkResponse 500 (Fail m), w')
          end
        end
      else (mkResponse 500 (Fail (ACCESS_CHANGE_NOT_ALLOWED E)), w)
    end.
Proof.
  unfold handleNewAccessRole. run_handler.
  destruct (getDocById docId w) as [[d|]|m]; [|done..].
  destruct (decide (adminId d = userId)) as [Howner|Howner].
  - rewrite bool_decide_eq_false_2 by (by intros ?).
    rewrite bool_decide_eq_true_2 by done.
    destruct (findUserByEmail email w) as [[u|]|m]; [|done..].
    by destruct (grantRole d (user_id u) r w) as [[[]|m] w'].
  - rewrite bool_decide_eq_true_2 by done.
    by rewrite bool_decide_eq_false_2 by done.
Qed.

Lemma handleRemoveRole_table (docId email : string) (r : Role.t)
    (userId : string) (w : W) :
  handleRemoveRole E S docId email r userId w =
    match getDocById docId w with
    | Thrown m => (mkResponse 500 (Fail m), w)
    | Returned None => (mkResponse 404 (Fail (INVALID_DOC E)), w)
    | Returned (Some d) =>
      if bool_decide (adminId d = userId) then
        match findUserByEmail email w with
        | Thrown m => (mkResponse 500 (Fail m), w)
        | Returned None => (mkResponse 404 (Fail (EMAIL_NOT_REGISTERED E)), w)
        | Returned (Some u) =>
          match removeRole d (user_id u) r w with
          | (Returned _, w') =>
            (mkResponse 200 (SuccessMessage (ACCESS_REMOVED S)), w')
          | (Thrown m, w') => (mkResponse 500 (Fail m), w')
          end
        end
      else (mkResponse 500 (Fail (ACCESS_CHANGE_NOT_ALLOWED E)), w)
    end.
Proof.
  unfold handleRemoveRole. run_handler.
  destruct (getDocById docId w) as [[d|]|m]; [|done..].
  destruct (decide (adminId d = userId)) as [Howner|Howner].
  - rewrite bool_decide_eq_false_2 by (by intros ?).
    rewrite bool_decide_eq_true_2 by done.
    destruct (findUserByEmail email w) as [[u|]|m]; [|done..].
    by destruct (removeRole d (user_id u) r w) as [[[]|m] w'].
  - rewrite bool_decide_eq_true_2 by done.
    by rewrite bool_decide_eq_false_2 by done.
Qed.

Lemma handleDeleteDoc_table (docId userId : string) (w : W) :
  handleDeleteDoc E docId userId w =
    match getDocById docId w with
    | Thrown m => (mkResponse 500 (Fail m), w)
    | Returned None => (mkResponse 404 (Fail (INVALID_DOC E)), w)
    | Returned (Some d) =>
      if bool_decide (adminId d = userId) then
        match deleteDoc docId w with
        | (Returned _, w') => (mkResponse 200 Success, w')
        | (Thrown m, w') => (mkResponse 500 (Fail m), w')
        end
      else (mkResponse 500 (Fail (ACCESS_CHANGE_NOT_ALLOWED E)), w)
    end.
Proof.
  unfold handleDeleteDoc. run_handler.
  destruct (getDocById docId w) as [[d|]|m]; [|done..].
  destruct (decide (adminId d = userId)) as [Howner|Howner].
  - rewrite bool_decide_eq_false_2 by (by intros ?).
    rewrite bool_decide_eq_true_2 by done.
    by destruct (deleteDoc docId w) as [[[]|m] w'].
  - rewrite bool_decide_eq_true_2 by done.
    by rewrite bool_decide_eq_false_2 by done.
Qed.
End Tables.

(** ** Failures of the services *)

Section Failures.
Context {W : Type} `{!Services W}.
Context (E : ErrorMessages) (S : SuccessMessages).

(** X1. [handleGetAllUser] answers 500 exactly when fetching the document
    rejects: no failure of an email lookup can make the call fail. The answer
    then carries the internal-server-error message, not the message of the
    rejection. *)
Theorem handleGetAllUser_500_iff (docId userId : string) (w : W) :
  (statusCode (fst (handleGetAllUser E docId userId w)) = 500 ↔
   ∃ m, getDocById docId w = Thrown m) ∧
  (statusCode (fst (handleGetAllUser E docId userId w)) = 500 →
   body (fst (handleGetAllUser E docId userId w)) = Fail (INTERNAL_SERVER_ERROR E)).
Proof.
  rewrite handleGetAllUser_table.
  destruct (getDocById docId w) as [[d|]|m]; simpl.
  - case_bool_decide; simpl; (split; [split|]); try done; by intros [? ?].
  - split; [split|]; try done. by intros [? ?].
  - split; [split|]; eauto.
Qed.

(** X2. [handleGetFiles] answers 500 exactly when [getAllFiles] rejects, with
    the internal-server-error message in place of the rejection's; in every
    other case it answers 200 with one entry per file returned, in the same
    order. *)
Theorem handleGetFiles_500_iff (userId : string) (w : W) :
  (statusCode (fst (handleGetFiles E userId w)) = 500 ↔
   ∃ m, getAllFiles userId w = Thrown m) ∧
  (statusCode (fst (handleGetFiles E userId w)) = 500 →
   body (fst (handleGetFiles E userId w)) = Fail (INTERNAL_SERVER_ERROR E)) ∧
  (∀ files, getAllFiles userId w = Returned files →
   ∃ entries,
     fst (handleGetFiles E userId w) = mkResponse 200 (SuccessDocs entries) ∧
     docId <$> entries = _id <$> files).
Proof.
  rewrite handleGetFiles_table.
  destruct (getAllFiles userId w) as [files|m]; simpl.
  - split; [split|split]; try done.
    + by intros [? ?].
    + intros ? [= <-]. eexists. split; [done|].
      rewrite <-list_fmap_compose. by apply list_fmap_ext.
  - split; [split|split]; eauto. done.
Qed.

(** X12. The three mutating handlers forward the message of a rejecting finder
    verbatim: when fetching the document rejects, and when, for the owner of
    an existing document, the lookup of the email rejects, the answer is 500
    with the rejection's own message, and the store is as it was. *)
Theorem finder_rejection_forwarded (docId email : string) (r : Role.t)
    (userId : string) (w : W) :
  (∀ m, getDocById docId w = Thrown m →
     handleNewAccessRole E S docId email r userId w = (mkResponse 500 (Fail m), w) ∧
     handleRemoveRole E S docId email r userId w = (mkResponse 500 (Fail m), w) ∧
     handleDeleteDoc E docId userId w = (mkResponse 500 (Fail m), w)) ∧
  (∀ d m, getDocById docId w = Returned (Some d) → adminId d = userId →
     findUserByEmail email w = Thrown m →
     handleNewAccessRole E S docId email r userId w = (mkResponse 500 (Fail m), w) ∧
     handleRemoveRole E S docId email r userId w = (mkResponse 500 (Fail m), w)).
Proof.
  rewrite handleNewAccessRole_table, handleRemoveRole_table, handleDeleteDoc_table.
  split.
  - intros m ->. done.
  - intros d m -> Howner ->. by rewrite bool_decide_eq_true_2.
Qed.

(** X13. Nothing is rolled back: when, for the owner of an existing document,
    the mutation itself rejects, the handler answers 500 with the rejection's
    message and the store stays as the mutation left it. *)
Theorem mutation_rejection_keeps_store (docId email : string) (r : Role.t)
    (userId : string) (w : W) (d : doc) :
  getDocById docId w = Returned (Some d) →
  adminId d = userId →
  (∀ m w', deleteDoc docId w = (Thrown m, w') →
     handleDeleteDoc E docId userId w = (mkResponse 500 (Fail m), w')) ∧
  (∀ u m w', findUserByEmail email w = Returned (Some u) →
     grantRole d (user_id u) r w = (Thrown m, w') →
     handleNewAccessRole E S docId email r userId w = (mkResponse 500 (Fail m), w')) ∧
  (∀ u m w', findUserByEmail email w = Returned (Some u) →
     removeRole d (user_id u) r w = (Thrown m, w') →
     handleRemoveRole E S docId email r userId w = (mkResponse 500 (Fail m), w')).
Proof.
  intros Hdoc Howner.
  rewrite handleNewAccessRole_table, handleRemoveRole_table, handleDeleteDoc_table.
  rewrite Hdoc, bool_decide_eq_true_2 by done.
  split; [|split].
  - by intros m w' ->.
  - by intros u m w' -> ->.
  - by intros u m w' -> ->.
Qed.
End Failures.

(** ** Who can change the store *)

Section Authorisation.
Context {W : Type} `{!Services W}.
Context (E : ErrorMessages) (S : SuccessMessages).

(** X3. A caller who is not the owner of the document the store holds under
    [docId] (because there is none, because fetching it rejects, or because
    it belongs to somebody else) cannot change the store through
    [handleNewAccessRole], [handleRemoveRole] or [handleDeleteDoc], whatever
    the services do. *)
Theorem store_unchanged_unless_owner (docId email : string) (r : Role.t)
    (userId : string) (w : W) :
  (∀ d, getDocById docId w = Returned (Some d) → adminId d ≠ userId) →
  snd (handleNewAccessRole E S docId email r userId w) = w ∧
  snd (handleRemoveRole E S docId email r userId w) = w ∧
  snd (handleDeleteDoc E docId userId w) = w.
Proof.
  intros Hstranger.
  rewrite handleNewAccessRole_table, handleRemoveRole_table, handleDeleteDoc_table.
  destruct (getDocById docId w) as [[d|]|m]; [|done..].
  by rewrite bool_decide_eq_false_2 by (by apply Hstranger).
Qed.

(** X4. Neither [handleNewAccessRole] nor [handleRemoveRole] changes the store
    when the email does not resolve to a user, be it that nobody is
    registered under it or that the lookup rejects. *)
Theorem store_unchanged_unless_registered (docId email : string) (r : Role.t)
    (userId : string) (w : W) :
  (∀ u, findUserByEmail email w ≠ Returned (Some u)) →
  snd (handleNewAccessRole E S docId email r userId w) = w ∧
  snd (handleRemoveRole E S docId email r userId w) = w.
Proof.
  intros Hnobody.
  rewrite handleNewAccessRole_table, handleRemoveRole_table.
  destruct (getDocById docId w) as [[d|]|m]; [|done..].
  case_bool_decide; [|done].
  destruct (findUserByEmail email w) as [[u|]|m]; [|done..].
  by destruct (Hnobody u).
Qed.

(** X5. [handleDeleteDoc] answers 200 and leaves the store [w'] exactly when
    the document exists, the caller is its owner, and [deleteDoc], called on
    the requested identifier, returns leaving [w']. *)
Theorem handleDeleteDoc_success_iff (docId userId : string) (w w' : W) :
  statusCode (fst (handleDeleteDoc E docId userId w)) = 200 ∧
  snd (handleDeleteDoc E docId userId w) = w' ↔
  ∃ d, getDocById docId w = Returned (Some d) ∧ adminId d = userId ∧
       deleteDoc docId w = (Returned (), w').
Proof.
  rewrite handleDeleteDoc_table.
  destruct (getDocById docId w) as [[d|]|m]; simpl;
    [|split; [by intros [? _] | by intros (? & ? & _)]..].
  case_bool_decide as Howner; simpl.
  - destruct (deleteDoc docId w) as [[[]|m] w''] eqn:Hdel; simpl.
    + split; [intros [_ ->]; eauto | by intros (? & _ & _ & [= ->])].
    + split; [by intros [? _] | by intros (? & _ & _ & ?)].
  - split; [by intros [? _] | intros (? & [= <-] & ? & _); done].
Qed.

(** X6. [handleNewAccessRole] answers 200 and leaves the store [w'] exactly
    when the document exists, the caller is its owner, the email resolves to
    a user, and [grantRole], called on the fetched document, that user's
    identifier and the requested role, returns leaving [w']. *)
Theorem handleNewAccessRole_success_iff (docId email : string) (r : Role.t)
    (userId : string) (w w' : W) :
  statusCode (fst (handleNewAccessRole E S docId email r userId w)) = 200 ∧
  snd (handleNewAccessRole E S docId email r userId w) = w' ↔
  ∃ d u, getDocById docId w = Returned (Some d) ∧ adminId d = userId ∧
         findUserByEmail email w = Returned (Some u) ∧
         grantRole d (user_id u) r w = (Returned (), w').
Proof.
  rewrite handleNewAccessRole_table.
  destruct (getDocById docId w) as [[d|]|m]; simpl;
    [|split; [by intros [? _] | by intros (? & ? & ? & _)]..].
  case_bool_decide as Howner; simpl.
  - destruct (findUserByEmail email w) as [[u|]|m]; simpl;
      [|split; [by intros [? _] | by intros (? & ? & _ & _ & ? & _)]..].
    destruct (grantRole d (user_id u) r w) as [[[]|m] w''] eqn:Hgrant; simpl.
    + split; [intros [_ ->]; eauto 6|].
      intros (d' & u' & [= <-] & _ & [= <-] & Hg). by rewrite Hgrant in Hg; injection Hg.
    + split; [by intros [? _]|].
      intros (d' & u' & [= <-] & _ & [= <-] & Hg). by rewrite Hgrant in Hg.
  - split; [by intros [? _] | intros (? & ? & [= <-] & ? & _); done].
Qed.

(** X7. [handleRemoveRole] answers 200 and leaves the store [w'] exactly when
    the document exists, the caller is its owner, the email resolves to a
    user, and [removeRole], called on the fetched document, that user's
    identifier and the requested role, returns leaving [w']. *)
Theorem handleRemoveRole_success_iff (docId email : string) (r : Role.t)
    (userId : string) (w w' : W) :
  statusCode (fst (handleRemoveRole E S docId email r userId w)) = 200 ∧
  snd (handleRemoveRole E S docId email r userId w) = w' ↔
  ∃ d u, getDocById docId w = Returned (Some d) ∧ adminId d = userId ∧
         findUserByEmail email w = Returned (Some u) ∧
         removeRole d (user_id u) r w = (Returned (), w').
Proof.
  rewrite handleRemoveRole_table.
  destruct (getDocById docId w) as [[d|]|m]; simpl;
    [|split; [by intros [? _] | by intros (? & ? & ? & _)]..].
  case_bool_decide as Howner; simpl.
  - destruct (findUserByEmail email w) as [[u|]|m]; simpl;
      [|split; [by intros [? _] | by intros (? & ? & _ & _ & ? & _)]..].
    destruct (removeRole d (user_id u) r w) as [[[]|m] w''] eqn:Hremove; simpl.
    + split; [intros [_ ->]; eauto 6|].
      intros (d' & u' & [= <-] & _ & [= <-] & Hg). by rewrite Hremove in Hg; injection Hg.
    + split; [by intros [? _]|].
      intros (d' & u' & [= <-] & _ & [= <-] & Hg). by rewrite Hremove in Hg.
  - split; [by intros [? _] | intros (? & ? & [= <-] & ? & _); done].
Qed.
End Authorisation.

(** ** The shape of the answers *)

Section Answers.
Context {W : Type} `{!Services W}.
Context (E : ErrorMessages) (S : SuccessMessages).

(** X8. The status codes each handler can answer with, whatever the services
    do: [handleGetAllUser] is the only one that ever answers 403; the three
    mutating handlers answer 200, 404 or 500, and [handleGetFiles] 200 or
    500. *)
Theorem handler_status_codes (docId email : string) (r : Role.t)
    (userId : string) (w : W) :
  statusCode (fst (handleGetAllUser E docId userId w)) ∈ [200; 403; 404; 500] ∧
  statusCode (fst (handleGetFiles E userId w)) ∈ [200; 500] ∧
  statusCode (fst (handleNewAccessRole E S docId email r userId w)) ∈ [200; 404; 500] ∧
  statusCode (fst (handleRemoveRole E S docId email r userId w)) ∈ [200; 404; 500] ∧
  statusCode (fst (handleDeleteDoc E docId userId w)) ∈ [200; 404; 500].
Proof.
  rewrite handleGetAllUser_table, handleGetFiles_table, handleNewAccessRole_table,
    handleRemoveRole_table, handleDeleteDoc_table.
  repeat split.
  - destruct (getDocById docId w) as [[d|]|m]; [case_bool_decide|..]; simpl;
      repeat first [apply list_elem_of_here | apply list_elem_of_further].
  - destruct (getAllFiles userId w); simpl;
      repeat first [apply list_elem_of_here | apply list_elem_of_further].
  - destruct (getDocById docId w) as [[d|]|m];
      [case_bool_decide;
       [destruct (findUserByEmail email w) as [[u|]|m];
        [destruct (grantRole d (user_id u) r w) as [[[]|m] w']|..]|]|..]; simpl;
      repeat first [apply list_elem_of_here | apply list_elem_of_further].
  - destruct (getDocById docId w) as [[d|]|m];
      [case_bool_decide;
       [destruct (findUserByEmail email w) as [[u|]|m];
        [destruct (removeRole d (user_id u) r w) as [[[]|m] w']|..]|]|..]; simpl;
      repeat first [apply list_elem_of_here | apply list_elem_of_further].
  - destruct (getDocById docId w) as [[d|]|m];
      [case_bool_decide;
       [destruct (deleteDoc docId w) as [[[]|m] w']|]|..]; simpl;
      repeat first [apply list_elem_of_here | apply list_elem_of_further].
Qed.

(** X9. In every answer the body agrees with the status code: the body has
    the shape [{ status: "fail", error }] exactly when the code is 400 or
    more. *)
Theorem body_agrees_with_status (docId email : string) (r : Role.t)
    (userId : string) (w : W) :
  Forall (λ answer : Response,
            isFail (body answer) = bool_decide (400 ≤ statusCode answer)%nat)
    [fst (handleGetAllUser E docId userId w);
     fst (handleGetFiles E userId w);
     fst (handleNewAccessRole E S docId email r userId w);
     fst (handleRemoveRole E S docId email r userId w);
     fst (handleDeleteDoc E docId userId w)].
Proof.
  rewrite handleGetAllUser_table, handleGetFiles_table, handleNewAccessRole_table,
    handleRemoveRole_table, handleDeleteDoc_table.
  repeat apply Forall_cons_2; [..|apply Forall_nil_2].
  - by destruct (getDocById docId w) as [[d|]|m]; [case_bool_decide|..].
  - by destruct (getAllFiles userId w).
  - by destruct (getDocById docId w) as [[d|]|m];
      [case_bool_decide;
       [destruct (findUserByEmail email w) as [[u|]|m];
        [destruct (grantRole d (user_id u) r w) as [[[]|m] w']|..]|]|..].
  - by destruct (getDocById docId w) as [[d|]|m];
      [case_bool_decide;
       [destruct (findUserByEmail email w) as [[u|]|m];
        [destruct (removeRole d (user_id u) r w) as [[[]|m] w']|..]|]|..].
  - by destruct (getDocById docId w) as [[d|]|m];
      [case_bool_decide;
       [destruct (deleteDoc docId w) as [[[]|m] w']|]|..].
Qed.

(** X10. For the owner of an existing document, [handleGetAllUser] lists as
    many entries as the two role arrays hold identifiers, an absent array
    counting for none: an identifier stored twice, or in both arrays, is
    listed as often, and a document without role members gives the empty
    list. *)
Theorem handleGetAllUser_count (docId userId : string) (w : W) (d : doc) :
  getDocById docId w = Returned (Some d) →
  adminId d = userId →
  ∃ users,
    handleGetAllUser E docId userId w = (mkResponse 200 (SuccessUsers users), w) ∧
    length users =
      (length (default [] (readonly d)) + length (default [] (readWrite d)))%nat ∧
    (users = [] ↔ default [] (readonly d) = [] ∧ default [] (readWrite d) = []).
Proof.
  intros Hdoc Howner. rewrite handleGetAllUser_table, Hdoc.
  rewrite bool_decide_eq_true_2 by done.
  eexists. split; [done|].
  unfold mergedRoleSets, roleSet.
  split.
  - by rewrite length_fmap, length_app, !length_fmap.
  - split.
    + intros [Hro Hrw]%fmap_nil_inv%app_eq_nil.
      by apply fmap_nil_inv in Hro, Hrw.
    + by intros [-> ->].
Qed.
End Answers.

(** ** Creating a document *)

(** X11. [handleAddDoc] answers 201 and leaves the store [w'] exactly when
    [addDoc], called with the name, the description and the caller as admin,
    returns leaving [w']; when it rejects, the answer is 500 with the
    rejection's own message and the store is as [addDoc] left it. The handler
    answers with no other code. *)
Theorem handleAddDoc_created_iff {W : Type}
    (addDoc : string → string → string → async W ()) (S : SuccessMessages)
    (name desc userId : string) (w w' : W) :
  (statusCode (fst (handleAddDoc addDoc S name desc userId w)) = 201 ∧
   snd (handleAddDoc addDoc S name desc userId w) = w' ↔
   addDoc name desc userId w = (Returned (), w')) ∧
  (∀ m, addDoc name desc userId w = (Thrown m, w') →
        handleAddDoc addDoc S name desc userId w = (mkResponse 500 (Fail m), w')) ∧
  statusCode (fst (handleAddDoc addDoc S name desc userId w)) ∈ [201; 500].
Proof.
  unfold handleAddDoc. run_handler.
  destruct (addDoc name desc userId w) as [[[]|m] w''] eqn:Hadd; simpl.
  - split; [split|split].
    + by intros [_ ->].
    + by intros [= ->].
    + done.
    + apply list_elem_of_here.
  - split; [split|split].
    + by intros [? _].
    + done.
    + by intros ? [= -> ->].
    + apply list_elem_of_further, list_elem_of_here.
Qed.

(** X14. Refusals are uniform: for a caller who is not the owner of the
    document the store holds under [docId], the three mutating handlers give
    the same answer (404 when there is no document, 500 otherwise), and for
    an owner whose grantee email does not resolve to a user, granting and
    removing give the same answer. *)
Theorem refusals_agree {W : Type} `{!Services W} (E : ErrorMessages)
    (S : SuccessMessages) (docId email : string) (r : Role.t) (userId : string)
    (w : W) :
  ((∀ d, getDocById docId w = Returned (Some d) → adminId d ≠ userId) →
   handleNewAccessRole E S docId email r userId w = handleDeleteDoc E docId userId w ∧
   handleRemoveRole E S docId email r userId w = handleDeleteDoc E docId userId w) ∧
  ((∀ u, findUserByEmail email w ≠ Returned (Some u)) →
   handleNewAccessRole E S docId email r userId w =
   handleRemoveRole E S docId email r userId w).
Proof.
  rewrite handleNewAccessRole_table, handleRemoveRole_table, handleDeleteDoc_table.
  split.
  - intros Hstranger. destruct (getDocById docId w) as [[d|]|m]; [|done..].
    by rewrite bool_decide_eq_false_2 by (by apply Hstranger).
  - intros Hnobody. destruct (getDocById docId w) as [[d|]|m]; [|done..].
    case_bool_decide; [|done].
    destruct (findUserByEmail email w) as [[u|]|m]; [|done..].
    by destruct (Hnobody u).
Qed.

(** ** The further statements at the sample store *)

Lemma handleGetAllUser_500_iff_witness :
  (∃ m, getDocById (Services := Outage "connection lost") "d1" sampleStore = Thrown m) ∧
  statusCode (fst (@handleGetAllUser Store (Outage "connection lost") sampleErrors
                     "d1" "a1" sampleStore)) = 500 ∧
  body (fst (@handleGetAllUser Store (Outage "connection lost") sampleErrors
               "d1" "a1" sampleStore)) = Fail "internal server error".
Proof.
  destruct (@handleGetAllUser_500_iff Store (Outage "connection lost") sampleErrors
              "d1" "a1" sampleStore) as [Hiff Hbody].
  assert (∃ m, getDocById (Services := Outage "connection lost") "d1" sampleStore
               = Thrown m) as Hrejects by (by exists "connection lost").
  split; [exact Hrejects|].
  split; [exact (proj2 Hiff Hrejects) | exact (Hbody (proj2 Hiff Hrejects))].
Defined.

Lemma handleGetFiles_500_iff_witness :
  (∃ m, getAllFiles (Services := Outage "connection lost") "a1" sampleStore = Thrown m) ∧
  statusCode (fst (@handleGetFiles Store (Outage "connection lost") sampleErrors
                     "a1" sampleStore)) = 500 ∧
  getAllFiles "b2" sampleStore = Returned [specDoc; notesDoc] ∧
  ∃ entries,
    fst (handleGetFiles sampleErrors "b2" sampleStore) =
      mkResponse 200 (SuccessDocs entries) ∧
    docId <$> entries = _id <$> [specDoc; notesDoc].
Proof.
  assert (∃ m, getAllFiles (Services := Outage "connection lost") "a1" sampleStore
               = Thrown m) as Hrejects by (by exists "connection lost").
  split; [exact Hrejects|].
  split.
  - exact (proj2 (proj1 (@handleGetFiles_500_iff Store (Outage "connection lost")
                           sampleErrors "a1" sampleStore)) Hrejects).
  - split; [reflexivity|].
    exact (proj2 (proj2 (@handleGetFiles_500_iff Store StoreServices sampleErrors
                           "b2" sampleStore)) [specDoc; notesDoc] eq_refl).
Defined.

Lemma finder_rejection_forwarded_witness :
  getDocById (Services := Outage "connection lost") "d1" sampleStore
    = Thrown "connection lost" ∧
  @handleNewAccessRole Store (Outage "connection lost") sampleErrors sampleSuccess
      "d1" "bob@x.com" Role.readOnly "a1" sampleStore =
    (mkResponse 500 (Fail "connection lost"), sampleStore) ∧
  @handleRemoveRole Store (Outage "connection lost") sampleErrors sampleSuccess
      "d1" "bob@x.com" Role.readOnly "a1" sampleStore =
    (mkResponse 500 (Fail "connection lost"), sampleStore) ∧
  @handleDeleteDoc Store (Outage "connection lost") sampleErrors "d1" "a1" sampleStore =
    (mkResponse 500 (Fail "connection lost"), sampleStore).
Proof.
  split; [reflexivity|].
  exact (proj1 (@finder_rejection_forwarded Store (Outage "connection lost")
                  sampleErrors sampleSuccess "d1" "bob@x.com" Role.readOnly "a1"
                  sampleStore) "connection lost" eq_refl).
Defined.

(** The deletion is applied and its acknowledgement lost: Alice is told of a
    failure, and her document is gone. *)
Lemma mutation_rejection_keeps_store_witness :
  getDocById (Services := LostAcknowledgement "timeout") "d1" sampleStore
    = Returned (Some specDoc) ∧
  adminId specDoc = "a1" ∧
  deleteDoc (Services := LostAcknowledgement "timeout") "d1" sampleStore
    = (Thrown "timeout", mkStore [notesDoc] [alice; bob; carol]) ∧
  @handleDeleteDoc Store (LostAcknowledgement "timeout") sampleErrors "d1" "a1" sampleStore =
    (mkResponse 500 (Fail "timeout"), mkStore [notesDoc] [alice; bob; carol]).
Proof.
  split; [reflexivity|]. split; [reflexivity|]. split; [reflexivity|].
  exact (proj1 (@mutation_rejection_keeps_store Store (LostAcknowledgement "timeout")
                  sampleErrors sampleSuccess "d1" "bob@x.com" Role.readOnly "a1"
                  sampleStore specDoc eq_refl eq_refl)
           "timeout" (mkStore [notesDoc] [alice; bob; carol]) eq_refl).
Defined.

(** Bob, a read-write member of Alice's document, changes nothing. *)
Lemma store_unchanged_unless_owner_witness :
  (∀ d, getDocById "d1" sampleStore = Returned (Some d) → adminId d ≠ "b2") ∧
  snd (handleNewAccessRole sampleErrors sampleSuccess "d1" "carol@x.com"
         Role.readWrite "b2" sampleStore) = sampleStore ∧
  snd (handleRemoveRole sampleErrors sampleSuccess "d1" "carol@x.com"
         Role.readOnly "b2" sampleStore) = sampleStore ∧
  snd (handleDeleteDoc sampleErrors "d1" "b2" sampleStore) = sampleStore.
Proof.
  assert (∀ d, getDocById "d1" sampleStore = Returned (Some d) → adminId d ≠ "b2")
    as Hstranger by (intros d [= <-]; discriminate).
  split; [exact Hstranger|].
  destruct (store_unchanged_unless_owner sampleErrors sampleSuccess "d1" "carol@x.com"
              Role.readWrite "b2" sampleStore Hstranger) as (Hgrant & _ & Hdelete).
  destruct (store_unchanged_unless_owner sampleErrors sampleSuccess "d1" "carol@x.com"
              Role.readOnly "b2" sampleStore Hstranger) as (_ & Hremove & _).
  by repeat split.
Defined.

Lemma store_unchanged_unless_registered_witness :
  (∀ u, findUserByEmail "nobody@x.com" sampleStore ≠ Returned (Some u)) ∧
  snd (handleNewAccessRole sampleErrors sampleSuccess "d1" "nobody@x.com"
         Role.readWrite "a1" sampleStore) = sampleStore ∧
  snd (handleRemoveRole sampleErrors sampleSuccess "d1" "nobody@x.com"
         Role.readWrite "a1" sampleStore) = sampleStore.
Proof.
  assert (∀ u, findUserByEmail "nobody@x.com" sampleStore ≠ Returned (Some u))
    as Hnobody by (intros u; discriminate).
  split; [exact Hnobody|].
  exact (store_unchanged_unless_registered sampleErrors sampleSuccess "d1"
           "nobody@x.com" Role.readWrite "a1" sampleStore Hnobody).
Defined.

Lemma handleDeleteDoc_success_iff_witness :
  statusCode (fst (handleDeleteDoc sampleErrors "d1" "a1" sampleStore)) = 200 ∧
  snd (handleDeleteDoc sampleErrors "d1" "a1" sampleStore) =
    mkStore [notesDoc] [alice; bob; carol].
Proof.
  apply (handleDeleteDoc_success_iff sampleErrors "d1" "a1" sampleStore
           (mkStore [notesDoc] [alice; bob; carol])).
  exists specDoc. by repeat split.
Defined.

Lemma handleNewAccessRole_success_iff_witness :
  statusCode (fst (handleNewAccessRole sampleErrors sampleSuccess "d2" "carol@x.com"
                     Role.readWrite "b2" sampleStore)) = 200 ∧
  snd (handleNewAccessRole sampleErrors sampleSuccess "d2" "carol@x.com"
         Role.readWrite "b2" sampleStore) =
    mkStore [specDoc; mkDoc "d2" "Notes" "draft" "b2" (Some []) (Some ["c3"])]
            [alice; bob; carol].
Proof.
  apply (handleNewAccessRole_success_iff sampleErrors sampleSuccess "d2" "carol@x.com"
           Role.readWrite "b2" sampleStore).
  exists notesDoc, carol. by repeat split.
Defined.

Lemma handleRemoveRole_success_iff_witness :
  statusCode (fst (handleRemoveRole sampleErrors sampleSuccess "d1" "bob@x.com"
                     Role.readWrite "a1" sampleStore)) = 200 ∧
  snd (handleRemoveRole sampleErrors sampleSuccess "d1" "bob@x.com"
         Role.readWrite "a1" sampleStore) =
    mkStore [mkDoc "d1" "Spec" "v1" "a1" (Some ["c3"]) (Some ["d4"]); notesDoc]
            [alice; bob; carol].
Proof.
  apply (handleRemoveRole_success_iff sampleErrors sampleSuccess "d1" "bob@x.com"
           Role.readWrite "a1" sampleStore).
  exists specDoc, bob. by repeat split.
Defined.

Lemma handleGetAllUser_count_witness :
  getDocById "d2" sampleStore = Returned (Some notesDoc) ∧
  adminId notesDoc = "b2" ∧
  ∃ users,
    handleGetAllUser sampleErrors "d2" "b2" sampleStore =
      (mkResponse 200 (SuccessUsers users), sampleStore) ∧
    length users =
      (length (default [] (readonly notesDoc)) +
       length (default [] (readWrite notesDoc)))%nat ∧
    (users = [] ↔
     default [] (readonly notesDoc) = [] ∧ default [] (readWrite notesDoc) = []).
Proof.
  split; [reflexivity|]. split; [reflexivity|].
  exact (handleGetAllUser_count sampleErrors "d2" "b2" sampleStore notesDoc
           eq_refl eq_refl).
Defined.

Lemma handleAddDoc_created_iff_witness :
  insertDoc "d3" "Plan" "q3" "c3" sampleStore =
    (Returned (),
     mkStore [specDoc; notesDoc; mkDoc "d3" "Plan" "q3" "c3" (Some []) (Some [])]
             [alice; bob; carol]) ∧
  statusCode (fst (handleAddDoc (insertDoc "d3") sampleSuccess "Plan" "q3" "c3"
                     sampleStore)) = 201 ∧
  snd (handleAddDoc (insertDoc "d3") sampleSuccess "Plan" "q3" "c3" sampleStore) =
    mkStore [specDoc; notesDoc; mkDoc "d3" "Plan" "q3" "c3" (Some []) (Some [])]
            [alice; bob; carol].
Proof.
  split; [reflexivity|].
  apply (proj1 (handleAddDoc_created_iff (insertDoc "d3") sampleSuccess "Plan" "q3"
                  "c3" sampleStore
                  (mkStore [specDoc; notesDoc;
                            mkDoc "d3" "Plan" "q3" "c3" (Some []) (Some [])]
                           [alice; bob; carol]))).
  reflexivity.
Defined.

Lemma refusals_agree_witness :
  (∀ d, getDocById "d1" sampleStore = Returned (Some d) → adminId d ≠ "b2") ∧
  handleNewAccessRole sampleErrors sampleSuccess "d1" "carol@x.com" Role.readWrite "b2"
      sampleStore = handleDeleteDoc sampleErrors "d1" "b2" sampleStore ∧
  handleRemoveRole sampleErrors sampleSuccess "d1" "carol@x.com" Role.readWrite "b2"
      sampleStore = handleDeleteDoc sampleErrors "d1" "b2" sampleStore.
Proof.
  assert (∀ d, getDocById "d1" sampleStore = Returned (Some d) → adminId d ≠ "b2")
    as Hstranger by (intros d [= <-]; discriminate).
  split; [exact Hstranger|].
  exact (proj1 (refusals_agree sampleErrors sampleSuccess "d1" "carol@x.com"
                  Role.readWrite "b2" sampleStore) Hstranger).
Defined.
